(** * tools/process_font.py: the overlap-removal driver

    The script loads a font with fontTools, removes the overlapping
    contours, saves the result and reports on the console.  fontTools is a
    third-party collaborator: it appears here as an interface ([FontLib])
    whose three operations are arbitrary transformers of the filesystem
    that either return or raise.  Everything the script itself does
    (argument check, prints, the [try]/[except Exception] block, the calls
    to [sys.exit]) is modelled line by line in [main]. *)

From Stdlib Require Import ZArith.
From stdpp Require Import base option list strings gmap.

Local Open Scope string_scope.
Local Open Scope list_scope.

(** ** Python values the script manipulates *)

(** Exceptions, by the part of the class hierarchy the handler can tell
    apart.  [Exception msg] stands for any instance of [Exception] (or of a
    subclass such as [OSError] or [TTLibError]) with [str(e) = msg]; the
    other three are the built-in classes that derive from [BaseException]
    only. *)
Inductive exc : Type :=
| Exception (msg : string)
| KeyboardInterrupt
| SystemExit (code : Z)
| GeneratorExit.

(** [isinstance(e, Exception)], the test made by [except Exception]. *)
Definition isinstance_Exception (e : exc) : bool :=
  match e with
  | Exception _ => true
  | _ => false
  end.

(** [str(e)], what the f-string [{e}] interpolates. *)
Definition str (e : exc) : string :=
  match e with
  | Exception msg => msg
  | _ => ""
  end.

(** A Python call either returns a value or raises. *)
Inductive outcome (A : Type) : Type :=
| Ret (a : A)
| Raise (e : exc).
Arguments Ret {A} a.
Arguments Raise {A} e.

(** ** The world: filesystem and event log *)

(** Files are byte strings, the filesystem maps paths to files. *)
Abbreviation FS := (gmap string (list Byte.byte)).

(** The operations the script asks of fontTools. *)
Inductive LibCall : Type :=
| Load (path : string)
| RemoveOverlaps
| Save (path : string).

(** What an observer of one run sees, in order: a [print] call with the
    text it wrote, or a library call with how it ended ([None]: it
    returned, [Some e]: it raised [e]). *)
Inductive Event : Type :=
| EvPrint (line : string)
| EvCall (c : LibCall) (r : option exc).

Record World : Type := mkWorld {
  fs : FS;
  trace : list Event
}.

(** The texts of the [print] calls, oldest first.  A text that holds a
    line feed is still one entry here; [console] below cuts what was
    written into lines. *)
Definition stdout (tr : list Event) : list string :=
  omap (fun ev => match ev with EvPrint s => Some s | EvCall _ _ => None end) tr.

(** The library calls made, oldest first, with their results. *)
Definition calls (tr : list Event) : list (LibCall * option exc) :=
  omap (fun ev => match ev with EvCall c r => Some (c, r) | EvPrint _ => None end) tr.

(** ** The collaborator *)

(** [TTFont(path)], [removeOverlaps(font)] and [font.save(path)].  A
    document is opaque.  [removeOverlaps] mutates the document in place;
    the driver holds the only reference, so the mutation is the new
    document state handed back.  Every operation may change the filesystem
    whether it returns or raises (a save that fails partway leaves what it
    wrote).  [compile] is the binary image of a document. *)
Record FontLib : Type := mkFontLib {
  Doc : Type;
  TTFont : string -> FS -> outcome Doc * FS;
  removeOverlaps : Doc -> FS -> outcome Doc * FS;
  save : Doc -> string -> FS -> outcome unit * FS;
  compile : Doc -> list Byte.byte
}.

(** ** A state and exception monad for the script *)

Definition M (A : Type) : Type := World -> outcome A * World.

#[global] Instance M_ret : MRet M := fun A a w => (Ret a, w).

#[global] Instance M_bind : MBind M := fun A B k m w =>
  match m w with
  | (Ret a, w') => k a w'
  | (Raise e, w') => (Raise e, w')
  end.

Definition raise {A : Type} (e : exc) : M A := fun w => (Raise e, w).

Definition log (ev : Event) (w : World) : World :=
  mkWorld (fs w) (trace w ++ [ev]).

(** [print(s)].  Standard output is taken as a sink that accepts every
    text: a [print] that raises (closed pipe, text the console encoding
    cannot show) is outside this model. *)
Definition print (s : string) : M unit := fun w => (Ret tt, log (EvPrint s) w).

(** [sys.exit(code)] raises [SystemExit(code)]. *)
Definition sys_exit {A : Type} (code : Z) : M A := raise (SystemExit code).

(** [l[i]] for a non-negative literal [i]: [IndexError] out of range. *)
Definition getitem (l : list string) (i : nat) : M string :=
  match l !! i with
  | Some x => mret x
  | None => raise (Exception "list index out of range")
  end.

Definition result_of {A : Type} (o : outcome A) : option exc :=
  match o with
  | Ret _ => None
  | Raise e => Some e
  end.

(** A call into the library: run the operation on the current filesystem,
    keep the filesystem it leaves, record the call and its result. *)
Definition call {A : Type} (c : LibCall) (op : FS -> outcome A * FS) : M A :=
  fun w =>
    let '(o, fs') := op (fs w) in
    (o, mkWorld fs' (trace w ++ [EvCall c (result_of o)])).

(** [try: body except Exception as e: handler(e)] *)
Definition try_except_Exception {A : Type} (body : M A) (handler : exc -> M A) : M A :=
  fun w =>
    match body w with
    | (Ret a, w') => (Ret a, w')
    | (Raise e, w') =>
        if isinstance_Exception e then handler e w' else (Raise e, w')
    end.

(** ** The script *)

Definition usage : string := "Usage: python process_font.py <input_ttf> <output_ttf>".

Definition main (L : FontLib) (argv : list string) : M unit :=
  (if negb (length argv =? 3)%nat then
     print usage ;;
     sys_exit 1
   else mret tt) ;;
  input_path ← getitem argv 1 ;
  output_path ← getitem argv 2 ;
  try_except_Exception
    (print ("-- Loading font: " +:+ input_path) ;;
     font ← call (Load input_path) (TTFont L input_path) ;
     print "-- Removing overlaps (this may take a moment)..." ;;
     font ← call RemoveOverlaps (removeOverlaps L font) ;
     print ("-- Saving to: " +:+ output_path) ;;
     call (Save output_path) (save L font output_path) ;;
     print "-- Done.")
    (fun e =>
       print ("Error processing font: " +:+ str e) ;;
       sys_exit 1).

(** How the process ends once [main()] returns or raises at module level:
    a normal return is status 0, [SystemExit(code)] is status [code], any
    other exception is left to the interpreter (traceback or signal). *)
Inductive ExitStatus : Type :=
| Exited (code : Z)
| Uncaught (e : exc).

Definition exit_status (o : outcome unit) : ExitStatus :=
  match o with
  | Ret _ => Exited 0
  | Raise (SystemExit code) => Exited code
  | Raise e => Uncaught e
  end.

(** One run of the script: a fresh process on filesystem [fs0]. *)
Definition run (L : FontLib) (argv : list string) (fs0 : FS) : ExitStatus * World :=
  let '(o, w) := main L argv (mkWorld fs0 []) in (exit_status o, w).

(** ** Vocabulary for the statements *)

(** The status line the script prints ahead of each library call. *)
Definition status_line (c : LibCall) : string :=
  match c with
  | Load path => "-- Loading font: " +:+ path
  | RemoveOverlaps => "-- Removing overlaps (this may take a moment)..."
  | Save path => "-- Saving to: " +:+ path
  end.

(** The line the handler prints for [e]. *)
Definition error_line (e : exc) : string := "Error processing font: " +:+ str e.

(** Is [s] a line of the form [Error processing font: ...]? *)
Definition is_error_line (s : string) : bool :=
  String.prefix "Error processing font: " s.

Inductive Stage : Type := AtLoad | AtRemoveOverlaps | AtSave.

(** The library, started on filesystem [f0] with the two paths, fails: the
    operation at [Stage] raises [e] and leaves filesystem [f], the
    operations before it having returned. *)
Inductive LibFails (L : FontLib) (inp out : string) (f0 : FS) (e : exc) (f : FS) :
  Stage -> Prop :=
| load_fails :
    TTFont L inp f0 = (Raise e, f) ->
    LibFails L inp out f0 e f AtLoad
| remove_fails d f1 :
    TTFont L inp f0 = (Ret d, f1) ->
    removeOverlaps L d f1 = (Raise e, f) ->
    LibFails L inp out f0 e f AtRemoveOverlaps
| save_fails d f1 d' f2 :
    TTFont L inp f0 = (Ret d, f1) ->
    removeOverlaps L d f1 = (Ret d', f2) ->
    save L d' out f2 = (Raise e, f) ->
    LibFails L inp out f0 e f AtSave.

(** All three operations return; [d'] is the document that was saved and
    [f] the filesystem the save left. *)
Inductive LibSucceeds (L : FontLib) (inp out : string) (f0 : FS) (d' : Doc L) (f : FS) : Prop :=
| all_succeed d f1 f2 :
    TTFont L inp f0 = (Ret d, f1) ->
    removeOverlaps L d f1 = (Ret d', f2) ->
    save L d' out f2 = (Ret tt, f) ->
    LibSucceeds L inp out f0 d' f.

(** The events of a run up to and including the call that raised [e]. *)
Definition events_until (st : Stage) (inp out : string) (e : exc) : list Event :=
  match st with
  | AtLoad =>
      [EvPrint (status_line (Load inp)); EvCall (Load inp) (Some e)]
  | AtRemoveOverlaps =>
      [EvPrint (status_line (Load inp)); EvCall (Load inp) None;
       EvPrint (status_line RemoveOverlaps); EvCall RemoveOverlaps (Some e)]
  | AtSave =>
      [EvPrint (status_line (Load inp)); EvCall (Load inp) None;
       EvPrint (status_line RemoveOverlaps); EvCall RemoveOverlaps None;
       EvPrint (status_line (Save out)); EvCall (Save out) (Some e)]
  end.

(** The events of a run in which nothing raised. *)
Definition events_success (inp out : string) : list Event :=
  [EvPrint (status_line (Load inp)); EvCall (Load inp) None;
   EvPrint (status_line RemoveOverlaps); EvCall RemoveOverlaps None;
   EvPrint (status_line (Save out)); EvCall (Save out) None;
   EvPrint "-- Done."].

(** Contracts of the library that some statements assume: a save that
    returns has put the document's binary image at the path; a load of a
    path that does not exist raises an ordinary exception and leaves the
    filesystem alone. *)
Definition save_writes_file (L : FontLib) : Prop :=
  forall d path f f', save L d path f = (Ret tt, f') -> f' !! path = Some (compile L d).

Definition load_rejects_missing (L : FontLib) : Prop :=
  forall path (f : FS), f !! path = None ->
    exists msg, TTFont L path f = (Raise (Exception msg), f).

(** The three status lines of a run on [inp] and [out], in the order the
    script prints them. *)
Definition status_lines (inp out : string) : list string :=
  [status_line (Load inp); status_line RemoveOverlaps; status_line (Save out)].

(** How many of the three steps were started when the step at [st] raised. *)
Definition stages_started (st : Stage) : nat :=
  match st with
  | AtLoad => 1
  | AtRemoveOverlaps => 2
  | AtSave => 3
  end.


(** A library whose load and overlap removal leave the filesystem as they
    found it, whether they return or raise. *)
Definition read_only_before_save (L : FontLib) : Prop :=
  (forall path f, (TTFont L path f).2 = f) /\
  (forall d f, (removeOverlaps L d f).2 = f).

(** ** The text on standard output, line by line *)

(** The line feed [print] puts after its argument. *)
Definition newline : Ascii.ascii := Ascii.ascii_of_nat 10.

Fixpoint no_newline (s : string) : bool :=
  match s with
  | EmptyString => true
  | String c s' => negb (Ascii.eqb c newline) && no_newline s'
  end.

(** What a sequence of [print] calls writes: each text, then a line feed. *)
Fixpoint written (texts : list string) : string :=
  match texts with
  | [] => EmptyString
  | s :: rest => s +:+ String newline (written rest)
  end.

(** The lines of a text, cut at its line feeds. *)
Fixpoint lines (t : string) : list string :=
  match t with
  | EmptyString => []
  | String c t' =>
      if Ascii.eqb c newline then EmptyString :: lines t'
      else match lines t' with
           | [] => [String c EmptyString]
           | l :: ls => String c l :: ls
           end
  end.

(** The lines a reader of standard output sees after a run. *)
Definition console (tr : list Event) : list string := lines (written (stdout tr)).

(** Texts made of printable ASCII characters (codes 32 to 126): they hold
    no line feed, carriage return or other line separator. *)
Definition printable_char (c : Ascii.ascii) : bool :=
  (32 <=? Ascii.nat_of_ascii c)%nat && (Ascii.nat_of_ascii c <=? 126)%nat.

Fixpoint printable (s : string) : bool :=
  match s with
  | EmptyString => true
  | String c s' => printable_char c && printable s'
  end.

(** Both paths are printable, and so is the message of any exception the
    library raises on them. *)
Definition printable_run (L : FontLib) (argv : list string) (f0 : FS) : Prop :=
  forall prog inp out, argv = [prog; inp; out] ->
    printable inp = true /\ printable out = true /\
    forall e f st, LibFails L inp out f0 e f st -> printable (str e) = true.

(** ** A scripted stand-in for fontTools

    Used to run the driver on concrete inputs.  A document is the byte
    string of the file; loading a missing path raises the [OSError] Python
    gives; overlap removal and saving fail on demand, saving after having
    written the first [n] bytes. *)
Module Mock.

Record Faults : Type := mkFaults {
  remove_raises : option exc;
  save_raises : option (nat * exc)
}.

Definition no_faults : Faults := mkFaults None None.

Definition load (path : string) (f : FS) : outcome (list Byte.byte) * FS :=
  match f !! path with
  | Some b => (Ret b, f)
  | None =>
      (Raise (Exception ("[Errno 2] No such file or directory: '" +:+ path +:+ "'")), f)
  end.

(** The stand-in's overlap removal: a byte that repeats its predecessor is
    dropped. *)
Fixpoint merge (d : list Byte.byte) : list Byte.byte :=
  match d with
  | a :: (b :: _) as rest => if Byte.eqb a b then merge rest else a :: merge rest
  | _ => d
  end.

Definition remove (flt : Faults) (d : list Byte.byte) (f : FS) : outcome (list Byte.byte) * FS :=
  match remove_raises flt with
  | Some e => (Raise e, f)
  | None => (Ret (merge d), f)
  end.

Definition store (flt : Faults) (d : list Byte.byte) (path : string) (f : FS) : outcome unit * FS :=
  match save_raises flt with
  | Some (n, e) => (Raise e, <[path := take n d]> f)
  | None => (Ret tt, <[path := d]> f)
  end.

Definition lib (flt : Faults) : FontLib :=
  mkFontLib (list Byte.byte) load (remove flt) (store flt) id.

Definition glyphs : list Byte.byte := String.list_byte_of_string "OTTO-A-B".

Definition disk : FS := {[ "in.ttf" := glyphs ]}.

Definition argv_ok : list string := ["process_font.py"; "in.ttf"; "out.ttf"].

(** Ctrl-C while the overlaps are being removed. *)
Definition interrupted : Faults := mkFaults (Some KeyboardInterrupt) None.

(** The disk fills up after three bytes of the output were written. *)
Definition disk_full : Faults :=
  mkFaults None (Some (3, Exception "[Errno 28] No space left on device")).

(** A file that was at the output path before the run. *)
Definition disk_with_output : FS :=
  <["out.ttf" := String.list_byte_of_string "previous"]> disk.

Definition merged : list Byte.byte := String.list_byte_of_string "OTO-A-B".

Definition argv_same : list string := ["process_font.py"; "in.ttf"; "in.ttf"].

Definition argv_missing : list string := ["process_font.py"; "missing.ttf"; "out.ttf"].

End Mock.


(** * Properties of the driver *)

Section Driver.

Context (L : FontLib).

(** *** How [main] runs, case by case *)

Ltac step_main :=
  unfold main, try_except_Exception, call, print, log, sys_exit, raise,
    mbind, M_bind, mret, M_ret; cbn.

Lemma main_failure prog inp out f0 tr e f st :
  LibFails L inp out f0 e f st ->
  main L [prog; inp; out] (mkWorld f0 tr) =
    if isinstance_Exception e
    then (Raise (SystemExit 1),
          mkWorld f (tr ++ events_until st inp out e ++ [EvPrint (error_line e)]))
    else (Raise e, mkWorld f (tr ++ events_until st inp out e)).
Proof.
  intros H.
  destruct H as [H1 | d f1 H1 H2 | d f1 d' f2 H1 H2 H3];
    step_main; rewrite H1; cbn;
    try (rewrite H2; cbn); try (rewrite H3; cbn);
    rewrite <- !app_assoc; destruct (isinstance_Exception e); reflexivity.
Qed.

Lemma main_success prog inp out f0 tr d' f :
  LibSucceeds L inp out f0 d' f ->
  main L [prog; inp; out] (mkWorld f0 tr) =
    (Ret tt, mkWorld f (tr ++ events_success inp out)).
Proof.
  intros [d f1 f2 H1 H2 H3].
  step_main. rewrite H1; cbn. rewrite H2; cbn. rewrite H3; cbn.
  rewrite <- !app_assoc. reflexivity.
Qed.

Lemma main_usage argv w :
  length argv <> 3 ->
  main L argv w = (Raise (SystemExit 1), mkWorld (fs w) (trace w ++ [EvPrint usage])).
Proof.
  intros Hlen. unfold main.
  destruct (Nat.eqb_spec (length argv) 3) as [Heq | _]; [contradiction |].
  reflexivity.
Qed.

(** The library either fails at one of the three stages or succeeds. *)
Lemma lib_cases inp out f0 :
  (exists e f st, LibFails L inp out f0 e f st) \/
  (exists d' f, LibSucceeds L inp out f0 d' f).
Proof.
  destruct (TTFont L inp f0) as [[d | e] f1] eqn:H1.
  - destruct (removeOverlaps L d f1) as [[d' | e] f2] eqn:H2.
    + destruct (save L d' out f2) as [[[] | e] f3] eqn:H3.
      * right. exists d', f3. econstructor; eassumption.
      * left. exists e, f3, AtSave. eapply save_fails; eassumption.
    + left. exists e, f2, AtRemoveOverlaps. eapply remove_fails; eassumption.
  - left. exists e, f1, AtLoad. apply load_fails; assumption.
Qed.

Lemma three_args (argv : list string) :
  length argv = 3 -> exists prog inp out, argv = [prog; inp; out].
Proof.
  destruct argv as [| a [| b [| c [| ? ?]]]]; try discriminate.
  intros _. eauto.
Qed.

Lemma run_failure prog inp out f0 e f st :
  LibFails L inp out f0 e f st ->
  run L [prog; inp; out] f0 =
    if isinstance_Exception e
    then (Exited 1, mkWorld f (events_until st inp out e ++ [EvPrint (error_line e)]))
    else (exit_status (Raise e), mkWorld f (events_until st inp out e)).
Proof.
  intros H. unfold run. rewrite (main_failure prog _ _ _ [] _ _ _ H).
  destruct (isinstance_Exception e); reflexivity.
Qed.

Lemma run_success prog inp out f0 d' f :
  LibSucceeds L inp out f0 d' f ->
  run L [prog; inp; out] f0 = (Exited 0, mkWorld f (events_success inp out)).
Proof.
  intros H. unfold run. rewrite (main_success prog _ _ _ [] _ _ H). reflexivity.
Qed.

Lemma run_usage argv f0 :
  length argv <> 3 ->
  run L argv f0 = (Exited 1, mkWorld f0 [EvPrint usage]).
Proof.
  intros H. unfold run. rewrite main_usage by assumption. reflexivity.
Qed.

(** *** Lines on standard output *)

Lemma status_not_error c : is_error_line (status_line c) = false.
Proof. destruct c; reflexivity. Qed.

Lemma error_line_is_error e : is_error_line (error_line e) = true.
Proof.
  unfold is_error_line, error_line. generalize (str e). intros [| c s]; reflexivity.
Qed.

Lemma stdout_until st inp out e :
  List.filter is_error_line (stdout (events_until st inp out e)) = [].
Proof. destruct st; reflexivity. Qed.

Lemma stdout_app tr1 tr2 : stdout (tr1 ++ tr2) = stdout tr1 ++ stdout tr2.
Proof. unfold stdout. apply omap_app. Qed.

(** ** Wrong number of arguments *)

(** C2: when the number of positional arguments ([argv] without the
    program name) is not two, the run prints the usage message and nothing
    else, exits with code 1, calls none of the library operations and
    leaves the filesystem as it was. *)
Theorem wrong_arity_usage argv f0 :
  length (tail argv) <> 2 ->
  exists w,
    run L argv f0 = (Exited 1, w) /\
    stdout (trace w) = [usage] /\
    calls (trace w) = [] /\
    fs w = f0.
Proof.
  intros Hlen.
  assert (length argv <> 3) as H3.
  { intros Heq. apply Hlen. destruct argv; [discriminate | ]. cbn in *. lia. }
  eexists. split; [apply run_usage; assumption | ]. repeat split.
Qed.

(** ** Failures of the library *)

(** C1, as amended: when load, overlap removal or save raises an instance
    of [Exception], the run exits with code 1 and its standard output holds
    exactly one line [Error processing font: <str(e)>], printed last. *)
Theorem exception_reported prog inp out f0 e f st :
  LibFails L inp out f0 e f st ->
  isinstance_Exception e = true ->
  exists w,
    run L [prog; inp; out] f0 = (Exited 1, w) /\
    List.filter is_error_line (stdout (trace w)) = ["Error processing font: " +:+ str e] /\
    last (stdout (trace w)) = Some ("Error processing font: " +:+ str e).
Proof.
  intros Hfail Hexc.
  eexists. split.
  { rewrite (run_failure _ _ _ _ _ _ _ Hfail), Hexc. reflexivity. }
  cbn [trace]. rewrite stdout_app. split.
  - rewrite List.filter_app, stdout_until. cbn.
    fold (error_line e). rewrite error_line_is_error. reflexivity.
  - cbn. apply last_snoc.
Qed.

(** C9: an exception that is not an instance of [Exception]
    ([KeyboardInterrupt], [SystemExit], [GeneratorExit]) raised by load,
    overlap removal or save leaves [main] as it is; the run stops at the
    failing call and no [Error processing font:] line is printed. *)
Theorem base_exception_propagates prog inp out f0 e f st :
  LibFails L inp out f0 e f st ->
  isinstance_Exception e = false ->
  exists w,
    main L [prog; inp; out] (mkWorld f0 []) = (Raise e, w) /\
    trace w = events_until st inp out e /\
    List.filter is_error_line (stdout (trace w)) = [].
Proof.
  intros Hfail Hexc.
  eexists. split.
  { rewrite (main_failure _ _ _ _ _ _ _ _ Hfail), Hexc. reflexivity. }
  cbn [trace app]. split; [reflexivity | apply stdout_until].
Qed.

(** C6: when the save raises (whatever it raises), the filesystem at the
    end of the run is the one the save left: the save is the last library
    call, and the output path holds what the save had put there. *)
Theorem failed_save_not_cleaned prog inp out f0 e f :
  LibFails L inp out f0 e f AtSave ->
  let w := (run L [prog; inp; out] f0).2 in
  fs w = f /\
  fs w !! out = f !! out /\
  calls (trace w) = [(Load inp, None); (RemoveOverlaps, None); (Save out, Some e)].
Proof.
  intros Hfail. cbv zeta.
  rewrite (run_failure _ _ _ _ _ _ _ Hfail).
  destruct (isinstance_Exception e); repeat split.
Qed.

(** ** The successful run *)

(** C5: when the three operations return, the run exits with code 0 and
    the filesystem is the one the save left; the save having written the
    file, the output path holds the binary image of the saved document. *)
Theorem success_exit_zero prog inp out f0 d' f :
  LibSucceeds L inp out f0 d' f ->
  save_writes_file L ->
  exists w,
    run L [prog; inp; out] f0 = (Exited 0, w) /\
    fs w = f /\
    fs w !! out = Some (compile L d').
Proof.
  intros Hok Hsave.
  eexists. split; [apply (run_success _ _ _ _ _ _ Hok) | ].
  cbn [fs]. split; [reflexivity | ].
  destruct Hok as [d f1 f2 _ _ H3]. exact (Hsave _ _ _ _ H3).
Qed.

(** ** Order of the steps *)

(** The event log of a run with two positional arguments has one of two
    shapes. *)
Lemma run_shapes prog inp out f0 :
  let tr := trace (run L [prog; inp; out] f0).2 in
  (exists st e,
     tr = events_until st inp out e ++
          (if isinstance_Exception e then [EvPrint (error_line e)] else [])) \/
  tr = events_success inp out.
Proof.
  cbv zeta.
  destruct (lib_cases inp out f0) as [(e & f & st & H) | (d' & f & H)].
  - left. exists st, e. rewrite (run_failure _ _ _ _ _ _ _ H).
    destruct (isinstance_Exception e); cbn [snd trace];
      [reflexivity | symmetry; apply app_nil_r].
  - right. rewrite (run_success _ _ _ _ _ _ H). reflexivity.
Qed.

Ltac by_position i H :=
  cbn in H;
  repeat (first [ discriminate H | destruct i as [| i]; cbn in H ]).





(** C4: a save is called only after a load and an overlap removal that
    both returned; and when the input path does not exist (the library
    then raising an ordinary exception without touching the filesystem),
    the run exits with code 1, prints the status line and the error line
    carrying the library's message, calls nothing but the load and leaves
    the filesystem as it was, so no output file appears. *)
Theorem save_needs_load_and_removal argv f0 :
  let '(status, w) := run L argv f0 in
  (forall i path r, trace w !! i = Some (EvCall (Save path) r) ->
     exists j k q, j < k < i /\
       trace w !! j = Some (EvCall (Load q) None) /\
       trace w !! k = Some (EvCall RemoveOverlaps None)) /\
  (forall prog inp out,
     argv = [prog; inp; out] ->
     f0 !! inp = None ->
     load_rejects_missing L ->
     exists msg,
       TTFont L inp f0 = (Raise (Exception msg), f0) /\
       status = Exited 1 /\
       stdout (trace w) = [status_line (Load inp); "Error processing font: " +:+ msg] /\
       calls (trace w) = [(Load inp, Some (Exception msg))] /\
       fs w = f0).
Proof.
  destruct (run L argv f0) as [status w] eqn:Hrun. split.
  - intros i path r H.
    destruct (decide (length argv = 3)) as [Hlen | Hlen].
    + destruct (three_args argv Hlen) as (prog & inp & out & ->).
      pose proof (run_shapes prog inp out f0) as Hsh. rewrite Hrun in Hsh.
      cbv zeta in Hsh. cbn [snd] in Hsh.
      destruct Hsh as [(st & e & Htr) | Htr]; rewrite Htr in H;
        [destruct st, (isinstance_Exception e) | ];
        cbn [events_until events_success app] in H; by_position i H;
        exists 1, 3, inp; rewrite Htr; (split; [lia | split; reflexivity]).
    + rewrite (run_usage argv f0 Hlen) in Hrun. injection Hrun as _ <-.
      cbn in H. by_position i H.
  - intros prog inp out -> Hmissing Hload.
    destruct (Hload inp f0 Hmissing) as [msg Hmsg].
    exists msg. split; [assumption | ].
    rewrite (run_failure _ _ _ _ _ _ _ (load_fails _ _ out _ _ _ Hmsg)) in Hrun.
    cbn in Hrun. injection Hrun as <- <-. repeat split.
Qed.

(** C10: a run whose two paths are the same string is not turned away:
    the load is called on that path, and once load and overlap removal
    have returned the save is called on the very same path, with the
    processed document; the run ends on the filesystem that save leaves,
    so a save that writes its file has replaced the input file by the
    binary image of the processed document. *)
Theorem same_path_overwritten prog path f0 :
  let w := (run L [prog; path; path] f0).2 in
  (exists r, calls (trace w) !! 0 = Some (Load path, r)) /\
  (forall d f1 d' f2,
     TTFont L path f0 = (Ret d, f1) ->
     removeOverlaps L d f1 = (Ret d', f2) ->
     calls (trace w) !! 2 = Some (Save path, result_of (save L d' path f2).1) /\
     fs w = (save L d' path f2).2 /\
     (save_writes_file L -> (save L d' path f2).1 = Ret tt ->
      fs w !! path = Some (compile L d'))).
Proof.
  cbv zeta. split.
  - destruct (run_shapes prog path path f0) as [(st & e & ->) | ->].
    + destruct st; eexists; reflexivity.
    + eexists; reflexivity.
  - intros d f1 d' f2 H1 H2.
    destruct (save L d' path f2) as [[[] | e] f3] eqn:H3.
    + rewrite (run_success prog path path f0 d' f3) by (econstructor; eassumption).
      cbn. repeat split. intros Hsave _. exact (Hsave _ _ _ _ H3).
    + rewrite (run_failure prog path path f0 e f3 AtSave)
        by (eapply save_fails; eassumption).
      destruct (isinstance_Exception e); cbn; repeat split; discriminate.
Qed.

End Driver.

(** ** Determinism *)

(** C7: two runs on the same argument vector in which the library calls
    end the same way (same calls, same returns, same exceptions) print the
    same lines and end with the same exit status, whatever the libraries
    and the filesystems are otherwise. *)
Theorem run_deterministic (L1 L2 : FontLib) argv f1 f2 :
  calls (trace (run L1 argv f1).2) = calls (trace (run L2 argv f2).2) ->
  stdout (trace (run L1 argv f1).2) = stdout (trace (run L2 argv f2).2) /\
  (run L1 argv f1).1 = (run L2 argv f2).1.
Proof.
  destruct (decide (length argv = 3)) as [Hlen | Hlen].
  - destruct (three_args argv Hlen) as (prog & inp & out & ->).
    destruct (lib_cases L1 inp out f1) as [(e1 & g1 & st1 & H1) | (d1 & g1 & H1)];
    destruct (lib_cases L2 inp out f2) as [(e2 & g2 & st2 & H2) | (d2 & g2 & H2)];
    rewrite ?(run_failure _ _ _ _ _ _ _ _ H1), ?(run_failure _ _ _ _ _ _ _ _ H2),
            ?(run_success _ _ _ _ _ _ _ H1), ?(run_success _ _ _ _ _ _ _ H2).
    + destruct st1, st2,
        (isinstance_Exception e1) eqn:E1, (isinstance_Exception e2) eqn:E2;
        cbn; intros H; try discriminate H; injection H as <-;
        try congruence; split; reflexivity.
    + destruct st1, (isinstance_Exception e1); cbn; intros H; discriminate H.
    + destruct st2, (isinstance_Exception e2); cbn; intros H; discriminate H.
    + intros _. split; reflexivity.
  - rewrite !run_usage by assumption. intros _. split; reflexivity.
Qed.

(** * The driver on concrete runs *)

Lemma mock_save_writes_file flt :
  Mock.save_raises flt = None -> save_writes_file (Mock.lib flt).
Proof.
  intros Hflt d path f f' H. cbn in H. unfold Mock.store in H.
  rewrite Hflt in H. injection H as <-. apply lookup_insert_eq.
Qed.

Lemma mock_load_rejects_missing flt : load_rejects_missing (Mock.lib flt).
Proof.
  intros path f H. cbn. unfold Mock.load. rewrite H. eexists. reflexivity.
Qed.

Lemma mock_succeeds :
  LibSucceeds (Mock.lib Mock.no_faults) "in.ttf" "out.ttf" Mock.disk
    Mock.merged (<["out.ttf" := Mock.merged]> Mock.disk).
Proof.
  apply all_succeed with (d := Mock.glyphs) (f1 := Mock.disk) (f2 := Mock.disk);
    vm_compute; reflexivity.
Defined.

Lemma mock_interrupted :
  LibFails (Mock.lib Mock.interrupted) "in.ttf" "out.ttf" Mock.disk
    KeyboardInterrupt Mock.disk AtRemoveOverlaps.
Proof.
  apply remove_fails with (d := Mock.glyphs) (f1 := Mock.disk); vm_compute; reflexivity.
Defined.

Lemma mock_disk_full f0 :
  f0 !! "in.ttf" = Some Mock.glyphs ->
  LibFails (Mock.lib Mock.disk_full) "in.ttf" "out.ttf" f0
    (Exception "[Errno 28] No space left on device")
    (<["out.ttf" := take 3 Mock.merged]> f0) AtSave.
Proof.
  intros H.
  apply save_fails with (d := Mock.glyphs) (f1 := f0) (d' := Mock.merged) (f2 := f0);
    cbn; unfold Mock.load, Mock.remove, Mock.store; rewrite ?H; reflexivity.
Defined.

Lemma wrong_arity_usage_witness :
  length (tail ["process_font.py"; "in.ttf"]) <> 2 /\
  exists w,
    run (Mock.lib Mock.no_faults) ["process_font.py"; "in.ttf"] Mock.disk = (Exited 1, w) /\
    stdout (trace w) = [usage] /\
    calls (trace w) = [] /\
    fs w = Mock.disk.
Proof.
  split; [cbn; lia | apply wrong_arity_usage; cbn; lia].
Defined.

(** The claim C1 as written fails when the failure is not an instance of
    [Exception]: a [KeyboardInterrupt] raised during overlap removal is a
    failure of the library call, yet the run does not exit with code 1 and
    prints no [Error processing font:] line. *)
Lemma interrupt_not_reported :
  LibFails (Mock.lib Mock.interrupted) "in.ttf" "out.ttf" Mock.disk
    KeyboardInterrupt Mock.disk AtRemoveOverlaps /\
  (run (Mock.lib Mock.interrupted) Mock.argv_ok Mock.disk).1 = Uncaught KeyboardInterrupt /\
  (run (Mock.lib Mock.interrupted) Mock.argv_ok Mock.disk).1 <> Exited 1 /\
  stdout (trace (run (Mock.lib Mock.interrupted) Mock.argv_ok Mock.disk).2) =
    ["-- Loading font: in.ttf"; "-- Removing overlaps (this may take a moment)..."].
Proof.
  split; [exact mock_interrupted | ].
  split; [vm_compute; reflexivity | ].
  split; [vm_compute; discriminate | vm_compute; reflexivity].
Qed.

Lemma exception_reported_witness :
  LibFails (Mock.lib Mock.disk_full) "in.ttf" "out.ttf" Mock.disk
    (Exception "[Errno 28] No space left on device")
    (<["out.ttf" := take 3 Mock.merged]> Mock.disk) AtSave /\
  isinstance_Exception (Exception "[Errno 28] No space left on device") = true /\
  exists w,
    run (Mock.lib Mock.disk_full) Mock.argv_ok Mock.disk = (Exited 1, w) /\
    List.filter is_error_line (stdout (trace w)) =
      ["Error processing font: [Errno 28] No space left on device"] /\
    last (stdout (trace w)) =
      Some "Error processing font: [Errno 28] No space left on device".
Proof.
  split; [exact (mock_disk_full Mock.disk eq_refl) | ].
  split; [reflexivity | ].
  exact (exception_reported (Mock.lib Mock.disk_full) "process_font.py" "in.ttf" "out.ttf"
           Mock.disk (Exception "[Errno 28] No space left on device")
           (<["out.ttf" := take 3 Mock.merged]> Mock.disk) AtSave
           (mock_disk_full Mock.disk eq_refl) eq_refl).
Defined.

Lemma base_exception_propagates_witness :
  LibFails (Mock.lib Mock.interrupted) "in.ttf" "out.ttf" Mock.disk
    KeyboardInterrupt Mock.disk AtRemoveOverlaps /\
  isinstance_Exception KeyboardInterrupt = false /\
  exists w,
    main (Mock.lib Mock.interrupted) Mock.argv_ok (mkWorld Mock.disk []) =
      (Raise KeyboardInterrupt, w) /\
    trace w = events_until AtRemoveOverlaps "in.ttf" "out.ttf" KeyboardInterrupt /\
    List.filter is_error_line (stdout (trace w)) = [].
Proof.
  split; [exact mock_interrupted | ].
  split; [reflexivity | ].
  apply (base_exception_propagates (Mock.lib Mock.interrupted) "process_font.py"
           "in.ttf" "out.ttf" Mock.disk KeyboardInterrupt Mock.disk AtRemoveOverlaps);
    [exact mock_interrupted | reflexivity].
Defined.

Lemma failed_save_not_cleaned_witness :
  LibFails (Mock.lib Mock.disk_full) "in.ttf" "out.ttf" Mock.disk_with_output
    (Exception "[Errno 28] No space left on device")
    (<["out.ttf" := take 3 Mock.merged]> Mock.disk_with_output) AtSave /\
  fs (run (Mock.lib Mock.disk_full) Mock.argv_ok Mock.disk_with_output).2 !! "out.ttf" =
    Some (String.list_byte_of_string "OTO").
Proof.
  split; [apply mock_disk_full; vm_compute; reflexivity | ].
  destruct (failed_save_not_cleaned (Mock.lib Mock.disk_full) "process_font.py"
              "in.ttf" "out.ttf" Mock.disk_with_output _ _
              (mock_disk_full Mock.disk_with_output eq_refl)) as (_ & H & _).
  etransitivity; [exact H | vm_compute; reflexivity].
Defined.

Lemma success_exit_zero_witness :
  LibSucceeds (Mock.lib Mock.no_faults) "in.ttf" "out.ttf" Mock.disk
    Mock.merged (<["out.ttf" := Mock.merged]> Mock.disk) /\
  save_writes_file (Mock.lib Mock.no_faults) /\
  exists w,
    run (Mock.lib Mock.no_faults) Mock.argv_ok Mock.disk = (Exited 0, w) /\
    fs w = <["out.ttf" := Mock.merged]> Mock.disk /\
    fs w !! "out.ttf" = Some Mock.merged.
Proof.
  split; [exact mock_succeeds | ].
  split; [apply mock_save_writes_file; reflexivity | ].
  apply (success_exit_zero (Mock.lib Mock.no_faults) "process_font.py" "in.ttf" "out.ttf"
           Mock.disk Mock.merged _ mock_succeeds).
  apply mock_save_writes_file; reflexivity.
Defined.

Lemma run_deterministic_witness :
  calls (trace (run (Mock.lib Mock.no_faults) Mock.argv_ok Mock.disk).2) =
    calls (trace (run (Mock.lib Mock.no_faults) Mock.argv_ok Mock.disk_with_output).2) /\
  stdout (trace (run (Mock.lib Mock.no_faults) Mock.argv_ok Mock.disk).2) =
    stdout (trace (run (Mock.lib Mock.no_faults) Mock.argv_ok Mock.disk_with_output).2) /\
  (run (Mock.lib Mock.no_faults) Mock.argv_ok Mock.disk).1 =
    (run (Mock.lib Mock.no_faults) Mock.argv_ok Mock.disk_with_output).1.
Proof.
  split; [vm_compute; reflexivity | ].
  apply (run_deterministic (Mock.lib Mock.no_faults) (Mock.lib Mock.no_faults)
           Mock.argv_ok Mock.disk Mock.disk_with_output).
  vm_compute; reflexivity.
Defined.

Lemma save_needs_load_and_removal_witness :
  Mock.disk !! "missing.ttf" = None /\
  load_rejects_missing (Mock.lib Mock.no_faults) /\
  (run (Mock.lib Mock.no_faults) Mock.argv_missing Mock.disk).1 = Exited 1 /\
  stdout (trace (run (Mock.lib Mock.no_faults) Mock.argv_missing Mock.disk).2) =
    ["-- Loading font: missing.ttf";
     "Error processing font: [Errno 2] No such file or directory: 'missing.ttf'"] /\
  fs (run (Mock.lib Mock.no_faults) Mock.argv_missing Mock.disk).2 !! "out.ttf" = None.
Proof.
  split; [vm_compute; reflexivity | ].
  split; [apply mock_load_rejects_missing | ].
  pose proof (save_needs_load_and_removal (Mock.lib Mock.no_faults)
                Mock.argv_missing Mock.disk) as H.
  destruct (run (Mock.lib Mock.no_faults) Mock.argv_missing Mock.disk) as [status w].
  destruct H as [_ H].
  destruct (H "process_font.py" "missing.ttf" "out.ttf" eq_refl eq_refl
              (mock_load_rejects_missing Mock.no_faults))
    as (msg & Hmsg & -> & Hout & _ & Hfs).
  vm_compute in Hmsg. injection Hmsg as <-.
  cbn [fst snd]. split; [reflexivity | ]. split; [exact Hout | ].
  rewrite Hfs. vm_compute; reflexivity.
Defined.

Lemma same_path_overwritten_witness :
  TTFont (Mock.lib Mock.no_faults) "in.ttf" Mock.disk = (Ret Mock.glyphs, Mock.disk) /\
  removeOverlaps (Mock.lib Mock.no_faults) Mock.glyphs Mock.disk =
    (Ret Mock.merged, Mock.disk) /\
  save_writes_file (Mock.lib Mock.no_faults) /\
  Mock.disk !! "in.ttf" = Some Mock.glyphs /\
  fs (run (Mock.lib Mock.no_faults) Mock.argv_same Mock.disk).2 !! "in.ttf" =
    Some Mock.merged.
Proof.
  split; [vm_compute; reflexivity | ].
  split; [vm_compute; reflexivity | ].
  split; [apply mock_save_writes_file; reflexivity | ].
  split; [vm_compute; reflexivity | ].
  destruct (same_path_overwritten (Mock.lib Mock.no_faults) "process_font.py"
              "in.ttf" Mock.disk) as [_ H].
  destruct (H Mock.glyphs Mock.disk Mock.merged Mock.disk eq_refl eq_refl)
    as (_ & _ & Hfile).
  exact (Hfile (mock_save_writes_file Mock.no_faults eq_refl) eq_refl).
Defined.

(** The event log of a run in which nothing goes wrong. *)
Example run_mock_ok :
  trace (run (Mock.lib Mock.no_faults) Mock.argv_ok Mock.disk).2 =
    [EvPrint "-- Loading font: in.ttf"; EvCall (Load "in.ttf") None;
     EvPrint "-- Removing overlaps (this may take a moment)...";
     EvCall RemoveOverlaps None;
     EvPrint "-- Saving to: out.ttf"; EvCall (Save "out.ttf") None;
     EvPrint "-- Done."].
Proof. vm_compute; reflexivity. Qed.

(** * Further properties of the driver *)

Section More.

Context (L : FontLib).

Ltac other_line H := exfalso; cbv in H; discriminate H.

(** [print("-- Done.")] is executed exactly when the argument vector has
    two positional arguments and load, overlap removal and save all
    returned. *)
Lemma done_printed_iff_success argv f0 :
  In "-- Done." (stdout (trace (run L argv f0).2)) <->
  exists prog inp out d' f,
    argv = [prog; inp; out] /\ LibSucceeds L inp out f0 d' f.
Proof.
  split.
  - destruct (decide (length argv = 3)) as [Hlen | Hlen].
    + destruct (three_args argv Hlen) as (prog & inp & out & ->).
      destruct (lib_cases L inp out f0) as [(e & f & st & H) | (d' & f & H)].
      * rewrite (run_failure _ _ _ _ _ _ _ _ H).
        destruct st, (isinstance_Exception e); cbn; intros Hin;
          repeat (destruct Hin as [Hin | Hin]; [other_line Hin | ]);
          contradiction.
      * intros _. exists prog, inp, out, d', f. split; [reflexivity | assumption].
    + rewrite (run_usage _ _ _ Hlen). cbn. intros [Hin | []]. other_line Hin.
  - intros (prog & inp & out & d' & f & -> & H).
    rewrite (run_success _ _ _ _ _ _ _ H). cbn. auto.
Qed.


(** X4: the program name [sys.argv[0]] plays no part: two argument
    vectors that differ in it only give the same run. *)
Theorem program_name_ignored prog1 prog2 args f0 :
  run L (prog1 :: args) f0 = run L (prog2 :: args) f0.
Proof.
  destruct (decide (length args = 2)) as [Hlen | Hlen].
  - destruct args as [| inp [| out [| ? ?]]]; try discriminate Hlen.
    destruct (lib_cases L inp out f0) as [(e & f & st & H) | (d' & f & H)].
    + rewrite !(run_failure _ _ _ _ _ _ _ _ H). reflexivity.
    + rewrite !(run_success _ _ _ _ _ _ _ H). reflexivity.
  - rewrite !run_usage by (cbn; lia). reflexivity.
Qed.

(** X5: with a library whose load and overlap removal do not write, a run
    in which save is not called ends on the filesystem it started on:
    nothing is written by the driver itself. *)
Theorem no_save_no_write argv f0 :
  read_only_before_save L ->
  (forall path r, ~ In (Save path, r) (calls (trace (run L argv f0).2))) ->
  fs (run L argv f0).2 = f0.
Proof.
  intros [Hload Hremove].
  destruct (decide (length argv = 3)) as [Hlen | Hlen].
  - destruct (three_args argv Hlen) as (prog & inp & out & ->).
    destruct (lib_cases L inp out f0) as [(e & f & st & H) | (d' & f & H)].
    + rewrite (run_failure _ _ _ _ _ _ _ _ H).
      destruct H as [H1 | d f1 H1 H2 | d f1 d' f2 H1 H2 H3].
      * intros _. pose proof (Hload inp f0) as E. rewrite H1 in E.
        destruct (isinstance_Exception e); exact E.
      * intros _. pose proof (Hload inp f0) as E1. rewrite H1 in E1.
        pose proof (Hremove d f1) as E2. rewrite H2 in E2. cbn in E1, E2.
        destruct (isinstance_Exception e); cbn; congruence.
      * intros Hno. exfalso. apply (Hno out (Some e)).
        destruct (isinstance_Exception e); cbn; auto.
    + rewrite (run_success _ _ _ _ _ _ _ H). intros Hno. exfalso.
      apply (Hno out None). cbn. auto.
  - rewrite (run_usage _ _ _ Hlen). reflexivity.
Qed.

(** The texts printed in a run in which an operation raises. *)
Lemma stdout_of_failed_run prog inp out f0 e f st :
  LibFails L inp out f0 e f st ->
  stdout (trace (run L [prog; inp; out] f0).2) =
    take (stages_started st) (status_lines inp out) ++
    (if isinstance_Exception e then [error_line e] else []).
Proof.
  intros H. rewrite (run_failure _ _ _ _ _ _ _ _ H).
  destruct st, (isinstance_Exception e); reflexivity.
Qed.

(** [print(usage)] is executed exactly when the argument vector does not
    have three entries. *)
Lemma usage_printed_iff_wrong_arity argv f0 :
  In usage (stdout (trace (run L argv f0).2)) <-> length argv <> 3.
Proof.
  split.
  - intros Hin Hlen.
    destruct (three_args argv Hlen) as (prog & inp & out & ->).
    destruct (lib_cases L inp out f0) as [(e & f & st & H) | (d' & f & H)].
    + rewrite (run_failure _ _ _ _ _ _ _ _ H) in Hin.
      destruct st, (isinstance_Exception e); cbn in Hin;
        repeat (destruct Hin as [Hin | Hin]; [other_line Hin | ]);
        contradiction.
    + rewrite (run_success _ _ _ _ _ _ _ H) in Hin. cbn in Hin.
      repeat (destruct Hin as [Hin | Hin]; [other_line Hin | ]).
      contradiction.
  - intros Hlen. rewrite (run_usage _ _ _ Hlen). cbn. auto.
Qed.

(** *** Lines on the console *)

Lemma no_newline_app a b : no_newline (a +:+ b) = no_newline a && no_newline b.
Proof.
  induction a as [| c a IH]; [reflexivity | ].
  change (String c a +:+ b) with (String c (a +:+ b)).
  cbn [no_newline]. rewrite IH. apply andb_assoc.
Qed.

Lemma lines_line s t :
  no_newline s = true -> lines (s +:+ String newline t) = s :: lines t.
Proof.
  induction s as [| c s IH]; intros Hs.
  - reflexivity.
  - cbn [no_newline] in Hs. apply andb_prop in Hs as [Hc Hs].
    change (String c s +:+ String newline t) with (String c (s +:+ String newline t)).
    cbn [lines]. rewrite (IH Hs).
    destruct (Ascii.eqb c newline); [discriminate Hc | reflexivity].
Qed.

Lemma lines_written texts :
  Forall (fun s => no_newline s = true) texts -> lines (written texts) = texts.
Proof.
  induction 1 as [| s texts Hs _ IH]; [reflexivity | ].
  cbn [written]. rewrite (lines_line _ _ Hs), IH. reflexivity.
Qed.

Lemma status_line_one_line c :
  (match c with Load p | Save p => no_newline p | RemoveOverlaps => true end) = true ->
  no_newline (status_line c) = true.
Proof.
  destruct c; cbn [status_line]; intros H;
    rewrite ?no_newline_app, ?H; reflexivity.
Qed.

Lemma error_line_one_line e :
  no_newline (str e) = true -> no_newline (error_line e) = true.
Proof. intros H. unfold error_line. rewrite no_newline_app, H. reflexivity. Qed.

Lemma printable_no_newline s : printable s = true -> no_newline s = true.
Proof.
  induction s as [| c s IH]; [reflexivity | ].
  cbn [printable no_newline]. intros H. apply andb_prop in H as [Hc Hs].
  rewrite (IH Hs), andb_true_r.
  destruct (Ascii.eqb_spec c newline) as [-> | _]; [discriminate Hc | reflexivity].
Qed.

(** With printable paths and messages, the console shows the printed
    texts, one per line. *)
Lemma console_one_per_line argv f0 :
  printable_run L argv f0 ->
  console (trace (run L argv f0).2) = stdout (trace (run L argv f0).2).
Proof.
  intros Hone. apply lines_written.
  destruct (decide (length argv = 3)) as [Hlen | Hlen].
  - destruct (three_args argv Hlen) as (prog & inp & out & ->).
    destruct (Hone prog inp out eq_refl) as (Hinp & Hout & Hmsg).
    apply printable_no_newline in Hinp, Hout.
    pose proof (status_line_one_line (Load inp) Hinp) as S1.
    pose proof (status_line_one_line RemoveOverlaps eq_refl) as S2.
    pose proof (status_line_one_line (Save out) Hout) as S3.
    destruct (lib_cases L inp out f0) as [(e & f & st & H) | (d' & f & H)].
    + rewrite (run_failure _ _ _ _ _ _ _ _ H).
      pose proof (error_line_one_line e (printable_no_newline _ (Hmsg _ _ _ H))) as S4.
      destruct st, (isinstance_Exception e); cbn; repeat constructor; assumption.
    + rewrite (run_success _ _ _ _ _ _ _ H). cbn. repeat constructor; assumption.
  - rewrite (run_usage _ _ _ Hlen). cbn. repeat constructor.
Qed.

(** X1: when the paths and the messages of the library are printable
    ASCII, the line [-- Done.] is on standard output exactly when the
    argument vector has two positional arguments and load, overlap removal
    and save all returned. *)
Theorem done_line_iff_success argv f0 :
  printable_run L argv f0 ->
  In "-- Done." (console (trace (run L argv f0).2)) <->
  exists prog inp out d' f,
    argv = [prog; inp; out] /\ LibSucceeds L inp out f0 d' f.
Proof.
  intros Hone. rewrite (console_one_per_line _ _ Hone).
  apply done_printed_iff_success.
Qed.

(** X6: when an operation raises and the paths and the message are
    printable ASCII, the lines on standard output are the status lines of
    the steps started so far, followed by the error line if the exception
    is an instance of [Exception] and by nothing otherwise; for an instance
    of [Exception] that is one line more than the steps started. *)
Theorem console_of_failed_run prog inp out f0 e f st :
  LibFails L inp out f0 e f st ->
  printable inp = true ->
  printable out = true ->
  printable (str e) = true ->
  console (trace (run L [prog; inp; out] f0).2) =
    take (stages_started st) (status_lines inp out) ++
    (if isinstance_Exception e then [error_line e] else []) /\
  (isinstance_Exception e = true ->
   length (console (trace (run L [prog; inp; out] f0).2)) = S (stages_started st)).
Proof.
  intros H Hinp Hout Hmsg.
  apply printable_no_newline in Hinp, Hout, Hmsg.
  assert (console (trace (run L [prog; inp; out] f0).2) =
          take (stages_started st) (status_lines inp out) ++
          (if isinstance_Exception e then [error_line e] else [])) as Heq.
  { rewrite <- (stdout_of_failed_run prog _ _ _ _ _ _ H).
    unfold console. apply lines_written.
    rewrite (stdout_of_failed_run prog _ _ _ _ _ _ H).
    pose proof (status_line_one_line (Load inp) Hinp) as S1.
    pose proof (status_line_one_line RemoveOverlaps eq_refl) as S2.
    pose proof (status_line_one_line (Save out) Hout) as S3.
    pose proof (error_line_one_line e Hmsg) as S4.
    destruct st, (isinstance_Exception e); cbn; repeat constructor; assumption. }
  split; [exact Heq | ].
  intros Hexc. rewrite Heq, Hexc. destruct st; reflexivity.
Qed.

(** X7: when the paths and the messages of the library are printable
    ASCII, the usage message is a line of standard output exactly when the
    argument vector does not have three entries. *)
Theorem usage_line_iff_wrong_arity argv f0 :
  printable_run L argv f0 ->
  In usage (console (trace (run L argv f0).2)) <-> length argv <> 3.
Proof.
  intros Hone. rewrite (console_one_per_line _ _ Hone).
  apply usage_printed_iff_wrong_arity.
Qed.

End More.


Lemma mock_read_only_before_save flt : read_only_before_save (Mock.lib flt).
Proof.
  split.
  - intros path f. cbn. unfold Mock.load. destruct (f !! path); reflexivity.
  - intros d f. cbn. unfold Mock.remove. destruct (Mock.remove_raises flt); reflexivity.
Qed.


Lemma no_save_no_write_witness :
  read_only_before_save (Mock.lib Mock.interrupted) /\
  (forall path r,
     ~ In (Save path, r)
         (calls (trace (run (Mock.lib Mock.interrupted) Mock.argv_ok Mock.disk).2))) /\
  fs (run (Mock.lib Mock.interrupted) Mock.argv_ok Mock.disk).2 = Mock.disk.
Proof.
  assert (forall path r,
     ~ In (Save path, r)
         (calls (trace (run (Mock.lib Mock.interrupted) Mock.argv_ok Mock.disk).2)))
    as Hno.
  { intros path r Hin. vm_compute in Hin.
    destruct Hin as [Hin | [Hin | []]]; discriminate Hin. }
  split; [apply mock_read_only_before_save | ].
  split; [exact Hno | ].
  exact (no_save_no_write (Mock.lib Mock.interrupted) Mock.argv_ok Mock.disk
           (mock_read_only_before_save Mock.interrupted) Hno).
Defined.

Lemma mock_printable_ok : printable_run (Mock.lib Mock.no_faults) Mock.argv_ok Mock.disk.
Proof.
  intros prog inp out E. injection E as <- <- <-.
  split; [reflexivity | ]. split; [reflexivity | ].
  intros e f st H.
  destruct H as [H1 | d f1 H1 H2 | d f1 d' f2 H1 H2 H3].
  - vm_compute in H1. discriminate H1.
  - cbn in H2. discriminate H2.
  - cbn in H3. discriminate H3.
Qed.

Lemma mock_printable_short :
  printable_run (Mock.lib Mock.no_faults) ["process_font.py"; "in.ttf"] Mock.disk.
Proof. intros prog inp out E. discriminate E. Qed.

Lemma done_line_iff_success_witness :
  printable_run (Mock.lib Mock.no_faults) Mock.argv_ok Mock.disk /\
  In "-- Done." (console (trace (run (Mock.lib Mock.no_faults) Mock.argv_ok Mock.disk).2)).
Proof.
  split; [exact mock_printable_ok | ].
  apply (done_line_iff_success (Mock.lib Mock.no_faults) Mock.argv_ok Mock.disk
           mock_printable_ok).
  exists "process_font.py", "in.ttf", "out.ttf", Mock.merged,
    (<["out.ttf" := Mock.merged]> Mock.disk).
  split; [reflexivity | exact mock_succeeds].
Defined.

Lemma console_of_failed_run_witness :
  LibFails (Mock.lib Mock.disk_full) "in.ttf" "out.ttf" Mock.disk
    (Exception "[Errno 28] No space left on device")
    (<["out.ttf" := take 3 Mock.merged]> Mock.disk) AtSave /\
  printable "in.ttf" = true /\
  printable "out.ttf" = true /\
  printable "[Errno 28] No space left on device" = true /\
  console (trace (run (Mock.lib Mock.disk_full) Mock.argv_ok Mock.disk).2) =
    ["-- Loading font: in.ttf";
     "-- Removing overlaps (this may take a moment)...";
     "-- Saving to: out.ttf";
     "Error processing font: [Errno 28] No space left on device"].
Proof.
  split; [exact (mock_disk_full Mock.disk eq_refl) | ].
  split; [reflexivity | ]. split; [reflexivity | ]. split; [reflexivity | ].
  exact (proj1 (console_of_failed_run (Mock.lib Mock.disk_full) "process_font.py"
           "in.ttf" "out.ttf" Mock.disk (Exception "[Errno 28] No space left on device")
           (<["out.ttf" := take 3 Mock.merged]> Mock.disk) AtSave
           (mock_disk_full Mock.disk eq_refl) eq_refl eq_refl eq_refl)).
Defined.

Lemma usage_line_iff_wrong_arity_witness :
  printable_run (Mock.lib Mock.no_faults) ["process_font.py"; "in.ttf"] Mock.disk /\
  In usage
    (console (trace (run (Mock.lib Mock.no_faults) ["process_font.py"; "in.ttf"] Mock.disk).2)).
Proof.
  split; [exact mock_printable_short | ].
  apply (usage_line_iff_wrong_arity (Mock.lib Mock.no_faults)
           ["process_font.py"; "in.ttf"] Mock.disk mock_printable_short).
  cbn. lia.
Defined.

(** A path that holds a line feed shows as two lines: the print calls and
    the lines of the console part ways. *)
Example console_newline_in_path :
  console [EvPrint (status_line (Load ("x" +:+ String newline "-- Done.")))] =
    ["-- Loading font: x"; "-- Done."].
Proof. vm_compute; reflexivity. Qed.
